(** * builder.py: a shallow embedding of the configuration-driven build runner

    The single source file [builder.py] is modelled function by function:
    Python [str.replace], ordered [dict]s (insertion order kept, assignment
    to an existing key keeps its position), the shared mutable dicts of
    [main] as objects in a small heap, and the process effects ([print],
    [subprocess.call], [exit]) as a trace of events ended by a halt. *)

From Stdlib Require Import String Ascii List ZArith Bool Arith Lia.
Import ListNotations.
Open Scope string_scope.
Set Warnings "-register-all".

(** ** Python strings *)

Definition LF : ascii := "010"%char.

(** [drop n s] is [s[n:]]. *)
Fixpoint drop (n : nat) (s : string) : string :=
  match n, s with
  | O, _ => s
  | S n', String _ s' => drop n' s'
  | S _, EmptyString => EmptyString
  end.

(** [s.replace(old, new)] for a non-empty [old]: occurrences are replaced
    left to right without overlap; the text of [new] is never rescanned.
    Each step consumes at least one character, so [String.length s] is enough fuel. *)
Fixpoint replace_nonempty (fuel : nat) (old new s : string) : string :=
  match fuel with
  | O => s
  | S fuel' =>
    match s with
    | EmptyString => EmptyString
    | String c s' =>
      if String.prefix old s
      then new ++ replace_nonempty fuel' old new (drop (String.length old) s)
      else String c (replace_nonempty fuel' old new s')
    end
  end.

(** [s.replace("", new)] inserts [new] around every character. *)
Fixpoint interleave (new s : string) : string :=
  match s with
  | EmptyString => new
  | String c s' => new ++ String c (interleave new s')
  end.

Definition str_replace (s old new : string) : string :=
  match old with
  | EmptyString => interleave new s
  | String _ _ => replace_nonempty (String.length s) old new s
  end.

(** ** Python dicts: ordered association lists *)

Definition dict := list (string * string).

Fixpoint dict_get (k : string) (d : dict) : option string :=
  match d with
  | [] => None
  | (k', v) :: d' => if String.eqb k k' then Some v else dict_get k d'
  end.

(** [d[k] = v]: an existing key keeps its position, a new key goes last. *)
Fixpoint dict_set (k v : string) (d : dict) : dict :=
  match d with
  | [] => [(k, v)]
  | (k', v') :: d' =>
    if String.eqb k k' then (k, v) :: d' else (k', v') :: dict_set k v d'
  end.

(** [{**a, **b}] *)
Definition dict_merge (a b : dict) : dict :=
  fold_left (fun d '(k, v) => dict_set k v d) b a.

(** ** replace_with_variables *)

Definition placeholder (v : string) : string := "{" ++ v ++ "}".

(** One replacement per dict entry, in iteration order:

    for v in user_variables:
        value = str(value).replace('{' + v + '}', user_variables[v])
    for v in variables:
        value = str(value).replace('{' + v + '}', variables[v]) *)
Definition replace_pass (value : string) (d : dict) : string :=
  fold_left (fun value '(v, x) => str_replace value (placeholder v) x) d value.

Definition replace_with_variables (value : string) (variables user_variables : dict)
  : string :=
  replace_pass (replace_pass value user_variables) variables.

(** ** banner *)

Fixpoint hashes (n : nat) : string :=
  match n with O => EmptyString | S n' => String "#" (hashes n') end.

(** The Python literals ["echo -e '\\n"] etc. denote a backslash followed
    by [n]; a Rocq string literal has no escapes, so ["\n"] below is those
    same two characters. *)
Definition banner (text : string) : string :=
  let text := if Nat.ltb 110 (String.length text) then substring 0 110 text else text in
  let sep := "########" ++ hashes (String.length text) in
  "echo -e '\n" ++ sep ++ "\n### " ++ text ++ " ###\n" ++ sep ++ "\n'".

(** ** Configuration nodes

    A YAML mapping as loaded by [yaml.safe_load]; each key may be absent
    ([None]).  Mappings under [variables] / [environment] are dicts (keys
    unique, file order), [build] / [test] are lists of command templates.
    The same type serves for the root mapping (which carries [projects])
    and for each project. *)
Inductive node : Type :=
  Node (path : option string) (variables environment : option dict)
       (build test : option (list string))
       (projects : option (list (string * node))).

Definition n_path (n : node) := let '(Node p _ _ _ _ _) := n in p.
Definition n_variables (n : node) := let '(Node _ v _ _ _ _) := n in v.
Definition n_environment (n : node) := let '(Node _ _ e _ _ _) := n in e.
Definition n_build (n : node) := let '(Node _ _ _ b _ _) := n in b.
Definition n_test (n : node) := let '(Node _ _ _ _ t _) := n in t.
Definition n_projects (n : node) := let '(Node _ _ _ _ _ ps) := n in ps.

(** ** Dict objects: a heap of mutable dicts

    [main] passes one dict object ([variables]) to every project, and
    [extract_variables] writes into the object it receives; the objects
    are therefore heap cells addressed by a [ref]. *)
Definition ref := nat.
Definition heap := list dict.

Definition deref (h : heap) (r : ref) : dict := nth r h [].

Fixpoint store (h : heap) (r : ref) (d : dict) : heap :=
  match h, r with
  | [], _ => []
  | _ :: h', O => d :: h'
  | x :: h', S r' => x :: store h' r' d
  end.

Definition alloc (d : dict) (h : heap) : ref * heap := (List.length h, app h [d]).

(** ** extract_variables / extract_environment

    for var in root['variables']:
        variables[var] = replace_with_variables(str(root['variables'][var]),
                                                variables, user_variables)
    return variables

    The object [variables] is updated in place, and each template is
    resolved against the object as updated so far.  A YAML mapping has
    unique keys, so walking its pairs is walking its keys. *)
(** The loop body of [extract_variables]: [variables[var] = ...]. *)
Definition set_variable (user_variables : dict) (variables : ref) (h : heap)
  (entry : string * string) : heap :=
  let '(var, tmpl) := entry in
  let d := deref h variables in
  store h variables (dict_set var (replace_with_variables tmpl d user_variables) d).

Definition extract_variables (root : node) (variables : ref) (user_variables : dict)
  (h : heap) : ref * heap :=
  match n_variables root with
  | Some vs => (variables, fold_left (set_variable user_variables variables) vs h)
  | None => (variables, h)
  end.

(** The loop body of [extract_environment]: [environment[var] = ...]. *)
Definition set_environment (user_variables : dict) (environment variables : ref)
  (h : heap) (entry : string * string) : heap :=
  let '(var, tmpl) := entry in
  let e := deref h environment in
  store h environment
    (dict_set var (replace_with_variables tmpl (deref h variables) user_variables) e).

Definition extract_environment (root : node) (environment variables : ref)
  (user_variables : dict) (h : heap) : ref * heap :=
  match n_environment root with
  | Some es => (environment, fold_left (set_environment user_variables environment variables) es h)
  | None => (environment, h)
  end.

(** ** Process effects *)

Inductive event : Type :=
| Stdout (line : string)                          (* print(...) *)
| Stderr (line : string)                          (* print(..., file=sys.stderr) *)
| Spawn (cmd cwd : string) (env : dict).          (* subprocess.call(cmd, shell=True) *)

Inductive halt : Type :=
| Exit (code : Z)                                 (* SystemExit from exit(code) *)
| Raise (exn : string).                           (* an uncaught exception *)

Inductive result (A : Type) : Type :=
| Ok (a : A) (h : heap)
| Halt (x : halt).
Arguments Ok {A} a h.
Arguments Halt {A} x.

Definition M (A : Type) : Type := heap -> list event * result A.

Definition ret {A} (a : A) : M A := fun h => ([], Ok a h).

Definition bind {A B} (m : M A) (f : A -> M B) : M B :=
  fun h =>
    match m h with
    | (t1, Ok a h1) => let '(t2, r) := f a h1 in (app t1 t2, r)
    | (t1, Halt x) => (t1, Halt x)
    end.

Notation "x <- m ;; k" := (bind m (fun x => k))
  (at level 61, m at next level, right associativity).
Notation "m ;; k" := (bind m (fun _ => k))
  (at level 61, right associativity).

Definition emit (e : event) : M unit := fun h => ([e], Ok tt h).
Definition stop {A} (x : halt) : M A := fun _ => ([], Halt x).
Definition read (r : ref) : M dict := fun h => ([], Ok (deref h r) h).
Definition new_dict (d : dict) : M ref := fun h => let '(r, h') := alloc d h in ([], Ok r h').
Definition state (f : heap -> ref * heap) : M ref :=
  fun h => let '(r, h') := f h in ([], Ok r h').

(** error(text): print("ERROR: " + text, file=sys.stderr); exit(1) *)
Definition error {A} (text : string) : M A :=
  emit (Stderr ("ERROR: " ++ text)) ;; stop (Exit 1).

(** ** Regular expressions ([re.compile(path).match(cwd)])

    The Python [re] module is modelled on the pattern subset that paths use:
    literal characters, [.], the anchors [^] and [$], a backslash before a
    non-alphanumeric character, and the greedy quantifiers [*], [+], [?]
    on a single-character atom.  [re_compile] tells three outcomes apart:
    a pattern of the subset ([Parsed]); a pattern that [re.compile]
    rejects at a point the parse reaches inside the subset ([ReError]: a
    quantifier with nothing to repeat, a quantifier following [*], [+] or
    [?] with [*], a trailing backslash, an unbalanced [)]); and a pattern
    that uses syntax outside the subset ([Unmodelled]: groups, classes,
    alternation, counted, lazy or possessive repeats, letter and digit
    escapes).  [get_path] hands the last kind to the rest of the library,
    an abstract parameter. *)
Inductive atom : Type := AChar (c : ascii) | AAny.

Inductive piece : Type :=
| PAtom (a : atom) | PStar (a : atom) | PPlus (a : atom) | POpt (a : atom)
| PBol | PEol.

Definition regex := list piece.

Definition code_in (lo hi : nat) (c : ascii) : bool :=
  Nat.leb lo (nat_of_ascii c) && Nat.leb (nat_of_ascii c) hi.

Definition is_alnum (c : ascii) : bool :=
  code_in 48 57 c || code_in 65 90 c || code_in 97 122 c.

Definition is_quant (c : ascii) : bool :=
  Ascii.eqb c "*" || Ascii.eqb c "+" || Ascii.eqb c "?".

Definition starts_with (p : ascii -> bool) (s : string) : bool :=
  match s with String c _ => p c | EmptyString => false end.

Definition read_atom (c : ascii) (rest : string) : option (atom * string) :=
  if Ascii.eqb c "." then Some (AAny, rest)
  else if Ascii.eqb c "\" then
    match rest with
    | String e rest' => if is_alnum e then None else Some (AChar e, rest')
    | EmptyString => None
    end
  else if Ascii.eqb c "(" || Ascii.eqb c ")" || Ascii.eqb c "[" || Ascii.eqb c "|"
  then None
  else if Ascii.eqb c "{"
  then (if starts_with (fun d => code_in 48 57 d || Ascii.eqb d ",") rest
        then None else Some (AChar c, rest))
  else Some (AChar c, rest).

Definition quantified (q : ascii) (a : atom) : piece :=
  if Ascii.eqb q "*" then PStar a else if Ascii.eqb q "+" then PPlus a else POpt a.

Inductive parsed : Type :=
| Parsed (rx : regex)
| ReError
| Unmodelled.

Definition parsed_cons (x : piece) (p : parsed) : parsed :=
  match p with Parsed rx => Parsed (x :: rx) | q => q end.

(** Where a quantifier follows a quantifier: [*] is "multiple repeat";
    [?] (lazy) and [+] (possessive, or an error before Python 3.11) are
    outside the subset. *)
Definition after_quantifier (rest : string) (k : parsed) : parsed :=
  match rest with
  | String q _ =>
    if Ascii.eqb q "*" then ReError
    else if Ascii.eqb q "+" || Ascii.eqb q "?" then Unmodelled
    else k
  | EmptyString => k
  end.

(** [None] from [read_atom]: a trailing backslash and [)] are errors, the
    other cases are outside the subset. *)
Definition atom_failure (c : ascii) (rest : string) : parsed :=
  if Ascii.eqb c ")" then ReError
  else if Ascii.eqb c "\" then
    match rest with EmptyString => ReError | String _ _ => Unmodelled end
  else Unmodelled.

Fixpoint re_parse (fuel : nat) (s : string) : parsed :=
  match fuel with
  | O => Unmodelled
  | S f =>
    match s with
    | EmptyString => Parsed []
    | String c rest =>
      if is_quant c then ReError
      else if Ascii.eqb c "^" then
        (if starts_with is_quant rest then ReError else parsed_cons PBol (re_parse f rest))
      else if Ascii.eqb c "$" then
        (if starts_with is_quant rest then ReError else parsed_cons PEol (re_parse f rest))
      else
        match read_atom c rest with
        | None => atom_failure c rest
        | Some (a, rest1) =>
          match rest1 with
          | String q rest2 =>
            if is_quant q then
              after_quantifier rest2 (parsed_cons (quantified q a) (re_parse f rest2))
            else parsed_cons (PAtom a) (re_parse f rest1)
          | EmptyString => Parsed [PAtom a]
          end
        end
    end
  end.

Definition re_compile (s : string) : parsed := re_parse (S (String.length s)) s.

Definition atom_ok (a : atom) (c : ascii) : bool :=
  match a with AChar d => Ascii.eqb c d | AAny => negb (Ascii.eqb c LF) end.

(** The suffixes left after 1, 2, ... repetitions of a one-character atom. *)
Fixpoint reps (a : atom) (s : string) : list string :=
  match s with
  | EmptyString => []
  | String c s' => if atom_ok a c then s' :: reps a s' else []
  end.

Fixpoint first_some {A B : Type} (f : A -> option B) (l : list A) : option B :=
  match l with
  | [] => None
  | x :: l' => match f x with Some y => Some y | None => first_some f l' end
  end.

(** [$] matches at the end of the string or before a final newline. *)
Definition at_eol (s : string) : bool :=
  match s with
  | EmptyString => true
  | String c EmptyString => Ascii.eqb c LF
  | _ => false
  end.

(** Backtracking in Python's priority order: greedy repeats try the most
    repetitions first.  [n0] is the length of the subject (for [^]); the
    result is the unconsumed suffix. *)
Fixpoint match_here (n0 : nat) (r : regex) (s : string) {struct r} : option string :=
  match r with
  | [] => Some s
  | PBol :: r' => if Nat.eqb (String.length s) n0 then match_here n0 r' s else None
  | PEol :: r' => if at_eol s then match_here n0 r' s else None
  | PAtom a :: r' =>
    match s with
    | String c s' => if atom_ok a c then match_here n0 r' s' else None
    | EmptyString => None
    end
  | PStar a :: r' => first_some (fun t => match_here n0 r' t) (rev (s :: reps a s))
  | PPlus a :: r' => first_some (fun t => match_here n0 r' t) (rev (reps a s))
  | POpt a :: r' =>
    first_some (fun t => match_here n0 r' t)
      (match s with
       | String c s' => if atom_ok a c then [s'; s] else [s]
       | EmptyString => [s]
       end)
  end.

(** [regex.match(s)] anchored at position 0; [match.group()] is the
    consumed prefix. *)
Definition re_match (rx : regex) (s : string) : option string :=
  match match_here (String.length s) rx s with
  | Some rest => Some (substring 0 (String.length s - String.length rest) s)
  | None => None
  end.

(** ** Small string helpers *)

(** Characters [str.strip()] removes.  A character of the model is a
    code point below 256: the whitespace among them is 9-13, 28-31, the
    blank, U+0085 and U+00A0. *)
Definition is_space (c : ascii) : bool :=
  Ascii.eqb c " " || code_in 9 13 c || code_in 28 31 c ||
  Nat.eqb (nat_of_ascii c) 133 || Nat.eqb (nat_of_ascii c) 160.

Fixpoint lstrip (s : string) : string :=
  match s with
  | String c s' => if is_space c then lstrip s' else s
  | EmptyString => EmptyString
  end.

Fixpoint rstrip_by (p : ascii -> bool) (s : string) : string :=
  match s with
  | EmptyString => EmptyString
  | String c s' =>
    let r := rstrip_by p s' in
    if String.eqb r EmptyString && p c then EmptyString else String c r
  end.

Definition strip (s : string) : string := rstrip_by is_space (lstrip s).

(** [s.split('=', 1)] when it has two parts. *)
Fixpoint split_eq (s : string) : option (string * string) :=
  match s with
  | EmptyString => None
  | String c s' =>
    if Ascii.eqb c "=" then Some (EmptyString, s')
    else option_map (fun '(a, b) => (String c a, b)) (split_eq s')
  end.

Definition DQ : string := String "034"%char EmptyString.

(** ** Command line *)

Record args : Type := {
  a_no_build : bool;
  a_test : bool;
  a_variable : option (list string);
  a_operating_system : string;
  a_build_type : string
}.

Section World.

(** What the process observes of its surroundings. *)
Variable cwd : string.                          (* os.getcwd() *)
Variable home : string.                         (* $HOME *)
Variable user_home : string -> option string.   (* pwd.getpwnam(name).pw_dir *)
Variable os_environ : dict.                     (* os.environ *)
Variable shell : string -> string -> dict -> Z. (* exit status of sh -c cmd in cwd, env *)
Variable node_str : node -> string.             (* str(root) *)
(** [re.compile(pattern).match(subject)] for the patterns outside the
    modelled subset: [None] when [re.compile] raises [re.error], otherwise
    [match.group()] or [None] for no match. *)
Variable re_lib : string -> string -> option (option string).

(** [os.path.expanduser]:
    i = path.find('/', 1); userhome = $HOME for "~", the passwd entry for
    "~name" (path unchanged if there is none); then
    (userhome.rstrip('/') + path[i:]) or '/' *)
Definition expanduser (path : string) : string :=
  match path with
  | String c rest =>
    if Ascii.eqb c "~" then
      let i := match index 0 "/" rest with Some j => j | None => String.length rest end in
      let userhome := if Nat.eqb i 0 then Some home else user_home (substring 0 i rest) in
      match userhome with
      | None => path
      | Some uh =>
        match rstrip_by (Ascii.eqb "/") uh ++ drop i rest with
        | EmptyString => "/"
        | r => r
        end
      end
    else path
  | EmptyString => path
  end.

(** get_path *)
Definition get_path (root : node) (variables : ref) (user_variables : dict)
  : M (option string) :=
  match n_path root with
  | Some p =>
    d <- read variables ;;
    let path := expanduser (replace_with_variables p d user_variables) in
    match re_compile path with
    | Parsed regex => ret (re_match regex cwd)
    | ReError => stop (Raise "re.error")
    | Unmodelled =>
      match re_lib path cwd with
      | Some m => ret m
      | None => stop (Raise "re.error")
      end
    end
  | None => error ("No path in " ++ node_str root)
  end.

(** get_build_steps / get_test_steps:
        steps = []
        if 'build' in root:
            for x in root['build']: steps.append(x)
        return steps
    ([main], [build] and [test] never call them.) *)
Definition get_build_steps (root : node) : list string :=
  match n_build root with
  | Some xs => fold_left (fun steps x => app steps [x]) xs []
  | None => []
  end.

Definition get_test_steps (root : node) : list string :=
  match n_test root with
  | Some xs => fold_left (fun steps x => app steps [x]) xs []
  | None => []
  end.

(** get_system_name: the default of --operating-system. *)
Definition get_system_name : string := "fedora".

(** execute_command *)
Definition execute_command (cmd cwd0 : string) (environment : ref) : M unit :=
  emit (Stdout cmd) ;;
  e <- read environment ;;
  let env := dict_merge os_environ e in
  emit (Spawn cmd cwd0 env) ;;
  if Z.eqb (shell cmd cwd0 env) 0 then ret tt
  else error ("Execution of " ++ DQ ++ cmd ++ DQ ++ " failed.").

(** One iteration of the step loop of [build] / [test]:
        step = replace_with_variables(step, variables, user_variables)
        if len(cmd) > 0: cmd.append('&&')
        cmd.append(banner(step)); cmd.append('&&'); cmd.append(step) *)
Definition add_step (variables user_variables : dict) (cmd : list string) (step : string)
  : list string :=
  let step := replace_with_variables step variables user_variables in
  app (if Nat.ltb 0 (List.length cmd) then app cmd ["&&"] else cmd)
      [banner step; "&&"; step].

(** The body shared by [build] and [test]; [phase] selects the key. *)
Definition run_steps (phase : node -> option (list string)) (proj_root : node)
  (path : string) (variables environment : ref) (user_variables : dict) : M unit :=
  match phase proj_root with
  | None => ret tt
  | Some steps =>
    variables <- state (extract_variables proj_root variables user_variables) ;;
    environment <- state (extract_environment proj_root environment variables user_variables) ;;
    d <- read variables ;;
    let cmd := fold_left (add_step d user_variables) steps [] in
    execute_command (String.concat " " cmd) path environment
  end.

Definition build := run_steps n_build.
Definition test := run_steps n_test.

(** The body of [main]'s loop once [path] is truthy. *)
Definition run_project (a : args) (project : node) (path : string)
  (project_vars environment : ref) (user_variables : dict) : M unit :=
  (if negb (a_no_build a) then build project path project_vars environment user_variables
   else ret tt) ;;
  (if a_test a then test project path project_vars environment user_variables
   else ret tt).

(** for p in config['projects']: ...; error("No matching configuration entry found.") *)
Fixpoint select_project (a : args) (variables environment : ref) (user_variables : dict)
  (projects : list (string * node)) : M unit :=
  match projects with
  | [] => error "No matching configuration entry found."
  | (_, project) :: rest =>
    project_vars <- state (extract_variables project variables user_variables) ;;
    path <- get_path project project_vars user_variables ;;
    match path with
    | None | Some EmptyString => select_project a variables environment user_variables rest
    | Some p => run_project a project p project_vars environment user_variables
    end
  end.

(** for v in args.variable: s = v.split('=', 1); user_variables[s[0]] = str(s[1]).strip() *)
Fixpoint parse_variables (vs : list string) (user_variables : dict) : M dict :=
  match vs with
  | [] => ret user_variables
  | v :: vs' =>
    match split_eq v with
    | Some (k, x) => parse_variables vs' (dict_set k (strip x) user_variables)
    | None => stop (Raise "IndexError")
    end
  end.

(** [main] up to the project loop, on the loaded configuration. *)
Definition setup (a : args) (config : node)
  : M (ref * ref * dict * list (string * node)) :=
  user_variables <- match a_variable a with
                    | Some vs => parse_variables vs []
                    | None => ret []
                    end ;;
  variables <- new_dict (dict_set "bt" (a_build_type a)
                           (dict_set "os" (a_operating_system a) [])) ;;
  variables <- state (extract_variables config variables user_variables) ;;
  env0 <- new_dict [] ;;
  environment <- state (extract_environment config env0 variables user_variables) ;;
  match n_projects config with
  | Some projects => ret (variables, environment, user_variables, projects)
  | None => stop (Raise "KeyError")
  end.

Definition main (a : args) (config : node) : M unit :=
  bind (setup a config)
    (fun '(variables, environment, user_variables, projects) =>
       select_project a variables environment user_variables projects).

(** The projects [ps] are passed over by the loop of [main] without a
    match and without an error: each one's path matches nothing or only
    the empty prefix.  Returns the heap the loop continues with. *)
Fixpoint skipped (variables : ref) (user_variables : dict) (ps : list (string * node))
  (h : heap) : option heap :=
  match ps with
  | [] => Some h
  | (_, project) :: rest =>
    let '(project_vars, h1) := extract_variables project variables user_variables h in
    match get_path project project_vars user_variables h1 with
    | ([], Ok None h2) | ([], Ok (Some EmptyString) h2) =>
      skipped variables user_variables rest h2
    | _ => None
    end
  end.

End World.

(** ** The shell that runs a banner

    [subprocess.call(cmd, shell=True)] hands [cmd] to [/bin/sh] (bash on
    the Fedora system the script targets).  A banner is one simple command
    [echo -e ...]; this fragment of bash covers what it needs: blanks
    separate words, single quotes quote everything up to the next single
    quote and are removed, and a plain unquoted character is kept
    (characters with another meaning to the shell are outside the
    fragment: [None]).  [echo -e] joins its arguments with one blank,
    turns [\n] into a newline and [\\] into a backslash (other escapes
    are outside the fragment), and ends the output with a newline. *)
Definition sh_plain (c : ascii) : bool :=
  is_alnum c || Ascii.eqb c "-" || Ascii.eqb c "_" || Ascii.eqb c "." ||
  Ascii.eqb c "/" || Ascii.eqb c "," || Ascii.eqb c ":" || Ascii.eqb c "+" ||
  Ascii.eqb c "%" || Ascii.eqb c "@" || Ascii.eqb c "=".

Definition opt_word (w : option string) : string :=
  match w with Some x => x | None => EmptyString end.

Fixpoint sh_words (s : string) (quoted : bool) (cur : option string)
  : option (list string) :=
  match s with
  | EmptyString =>
    if quoted then None else Some (match cur with Some w => [w] | None => [] end)
  | String c s' =>
    if quoted then
      if Ascii.eqb c "'" then sh_words s' false cur
      else sh_words s' true (Some (opt_word cur ++ String c EmptyString))
    else if Ascii.eqb c "'" then sh_words s' true (Some (opt_word cur))
    else if Ascii.eqb c " " then
      match cur with
      | Some w => option_map (cons w) (sh_words s' false None)
      | None => sh_words s' false None
      end
    else if sh_plain c then sh_words s' false (Some (opt_word cur ++ String c EmptyString))
    else None
  end.

Fixpoint echo_escapes (s : string) : option string :=
  match s with
  | EmptyString => Some EmptyString
  | String c s' =>
    if Ascii.eqb c "\" then
      match s' with
      | String d s'' =>
        if Ascii.eqb d "n" then option_map (String LF) (echo_escapes s'')
        else if Ascii.eqb d "\" then option_map (String "\") (echo_escapes s'')
        else None
      | EmptyString => None
      end
    else option_map (String c) (echo_escapes s')
  end.

(** What the command [cmd] prints when it is an [echo -e] command. *)
Definition echo_output (cmd : string) : option string :=
  match sh_words cmd false None with
  | Some ("echo" :: "-e" :: words) =>
    option_map (fun o => o ++ String LF EmptyString) (echo_escapes (String.concat " " words))
  | _ => None
  end.

(** The banner's output as the spec describes it: a blank line, a line of
    [8 + len(title)] '#', the line [### title ###], the '#' line again and
    a blank line (the title cut to 110 characters). *)
Definition banner_output_as_specified (title : string) : string :=
  let t := if Nat.ltb 110 (String.length title) then substring 0 110 title else title in
  let nl := String LF EmptyString in
  let sep := hashes (8 + String.length t) in
  nl ++ sep ++ nl ++ "### " ++ t ++ " ###" ++ nl ++ sep ++ nl ++ nl.

(** ** Sample inputs *)

Definition args_default : args := {|
  a_no_build := false; a_test := false; a_variable := None;
  a_operating_system := "fedora"; a_build_type := "Release" |}.

Definition args_with_test : args := {|
  a_no_build := false; a_test := true; a_variable := None;
  a_operating_system := "fedora"; a_build_type := "Release" |}.

Definition project (path : option string) (vars : option dict)
  (build test : option (list string)) : node :=
  Node path vars None build test None.

Definition config_of (ps : list (string * node)) : node :=
  Node None None None None None (Some ps).

Definition shell_ok : string -> string -> dict -> Z := fun _ _ _ => 0%Z.
Definition no_user_home : string -> option string := fun _ => None.
Definition show_node : node -> string := fun _ => "{...}".
(** A library that matches no pattern outside the subset. *)
Definition lib_nomatch : string -> string -> option (option string) := fun _ _ => Some None.

(** Strings whose characters all differ from [c]. *)
Fixpoint no_char (c : ascii) (s : string) : bool :=
  match s with
  | EmptyString => true
  | String d s' => negb (Ascii.eqb d c) && no_char c s'
  end.

Definition no_braces (s : string) : bool := no_char "{" s && no_char "}" s.

(** The dict an [extract_*] loop leaves, entry by entry. *)
Definition declare_variable (user_variables : dict) (d : dict) (entry : string * string)
  : dict :=
  let '(var, tmpl) := entry in dict_set var (replace_with_variables tmpl d user_variables) d.

Definition declare_environment (user_variables variables : dict) (e : dict)
  (entry : string * string) : dict :=
  let '(var, tmpl) := entry in
  dict_set var (replace_with_variables tmpl variables user_variables) e.

Definition node_with_x : node := project (Some "/nomatch") (Some [("x", "1")]) None None.

Definition config_leak : node :=
  config_of [("p1", node_with_x);
             ("p2", project (Some "/tmp") None (Some ["echo {x}"]) None)].

Definition first_project : node := project (Some "/x") None (Some ["make"]) None.
Definition second_project : node := project (Some "/x") None (Some ["rm"]) None.
Definition config_two : node := config_of [("first", first_project); ("second", second_project)].

(** The heap [setup] leaves for [args_default] and a configuration
    without global variables or environment. *)
Definition heap_after_setup : heap := [[("os", "fedora"); ("bt", "Release")]; []].

Definition shell_fail : string -> string -> dict -> Z := fun _ _ _ => 1%Z.
Definition failing_project : node := project (Some "/tmp") None (Some ["false"]) (Some ["rm"]).
Definition other_project : node := project (Some "/other") None (Some ["make"]) None.
Definition empty_match_project : node := project (Some "x*") None (Some ["make"]) None.
Definition empty_build_project : node := project (Some "/tmp") None (Some []) None.
Definition no_build_project : node := project (Some "/tmp") None None None.

(** ** Vocabulary of the further properties *)

(** The words of the pipeline for resolved steps s1 ... sn:
    banner(s1) && s1 && banner(s2) && s2 && ... *)
Definition pipeline_words (steps : list string) : list string :=
  match steps with
  | [] => []
  | s :: rest => banner s :: "&&" :: s :: flat_map (fun t => ["&&"; banner t; "&&"; t]) rest
  end.

(** The command and working directory of every spawned shell, in order. *)
Definition spawns (t : list event) : list (string * string) :=
  flat_map (fun e => match e with Spawn c w _ => [(c, w)] | _ => [] end) t.

(** Characters that a path pattern takes literally and that neither the
    substitution nor [~] expansion touches. *)
Definition literal_char (c : ascii) : bool :=
  negb (is_quant c) && negb (Ascii.eqb c "^") && negb (Ascii.eqb c "$") &&
  negb (Ascii.eqb c ".") && negb (Ascii.eqb c "\") &&
  negb (Ascii.eqb c "(" || Ascii.eqb c ")" || Ascii.eqb c "[" || Ascii.eqb c "|") &&
  negb (Ascii.eqb c "{") && negb (Ascii.eqb c "~").

Fixpoint literal_path (s : string) : bool :=
  match s with
  | EmptyString => true
  | String c s' => literal_char c && literal_path s'
  end.

Fixpoint literal_regex (s : string) : regex :=
  match s with
  | EmptyString => []
  | String c s' => PAtom (AChar c) :: literal_regex s'
  end.

Definition environ_sample : dict := [("PATH", "/usr/bin"); ("HOME", "/root")].

(** * Sanity checks of the regular-expression model *)

Example re1 : match re_compile "/home/user/proj" with
              | Parsed rx => re_match rx "/home/user/proj/sub" = Some "/home/user/proj"
              | _ => False end.
Proof. vm_compute. reflexivity. Qed.
Example re2 : match re_compile "/t.*b*" with
              | Parsed rx => re_match rx "/tmp/ab" = Some "/tmp/ab"
              | _ => False end.
Proof. vm_compute. reflexivity. Qed.
Example re3 : re_compile "*" = ReError /\ re_compile "a**" = ReError /\
              re_compile "a\" = ReError /\ re_compile "a)" = ReError.
Proof. vm_compute. repeat split. Qed.
Example re4 : re_compile "(/tmp)" = Unmodelled /\ re_compile "/t[m]p" = Unmodelled /\
              re_compile "a|b" = Unmodelled /\ re_compile "\d" = Unmodelled /\
              re_compile "a*?" = Unmodelled /\ re_compile "a{1" = Unmodelled.
Proof. vm_compute. repeat split. Qed.

(** * Lemmas *)

Lemma append_empty_r : forall s, s ++ EmptyString = s.
Proof. induction s; cbn -[ascii_dec]; congruence. Qed.

Lemma prefix_refl : forall s, String.prefix s s = true.
Proof.
  induction s as [|c s IH]; cbn -[ascii_dec]; [reflexivity|].
  destruct (ascii_dec c c); [exact IH | congruence].
Qed.

Lemma drop_length : forall s, drop (String.length s) s = EmptyString.
Proof. induction s; cbn -[ascii_dec]; auto. Qed.

Lemma no_char_app : forall c a b, no_char c (a ++ b) = no_char c a && no_char c b.
Proof.
  induction a as [|d a IH]; intros b; cbn -[ascii_dec]; [reflexivity|].
  rewrite IH. apply andb_assoc.
Qed.

Lemma replace_nonempty_empty : forall f old new,
  replace_nonempty f old new EmptyString = EmptyString.
Proof. destruct f; reflexivity. Qed.

(** A pattern starting with ['{'] does not occur in a text without ['{']. *)
Lemma replace_nonempty_no_open : forall t f o new,
  no_char "{" t = true -> replace_nonempty f (String "{" o) new t = t.
Proof.
  induction t as [|c t IH]; intros f o new Ht; destruct f; cbn -[ascii_dec]; auto.
  cbn -[ascii_dec] in Ht. apply andb_prop in Ht as [Hc Ht].
  destruct (ascii_dec "{" c) as [E|_].
  - subst c. discriminate Hc.
  - rewrite IH; auto.
Qed.

Lemma prefix_close_eq : forall j k,
  no_char "}" k = true ->
  String.prefix (j ++ "}") (k ++ "}") = true -> j = k.
Proof.
  induction j as [|b j IH]; intros k Hk Hp; destruct k as [|a k].
  - reflexivity.
  - cbn -[ascii_dec] in Hk, Hp. apply andb_prop in Hk as [Ha _].
    destruct (ascii_dec "}" a) as [E|_]; [subst a; discriminate Ha | discriminate Hp].
  - cbn -[ascii_dec] in Hp. destruct (ascii_dec b "}") as [_|_]; [|discriminate Hp].
    destruct j; discriminate Hp.
  - cbn -[ascii_dec] in Hk, Hp. apply andb_prop in Hk as [_ Hk].
    destruct (ascii_dec b a) as [E|_]; [|discriminate Hp].
    subst b. f_equal. apply IH; assumption.
Qed.

Lemma replace_other_placeholder : forall k j x,
  no_braces k = true -> j <> k ->
  str_replace (placeholder k) (placeholder j) x = placeholder k.
Proof.
  intros k j x Hk Hjk. apply andb_prop in Hk as [Ho Hc].
  unfold placeholder, str_replace. cbn -[ascii_dec].
  destruct (ascii_dec "{" "{") as [_|E]; [|congruence].
  destruct (String.prefix (j ++ "}") (k ++ "}")) eqn:Hp.
  - exfalso. apply Hjk. apply prefix_close_eq; assumption.
  - f_equal. apply replace_nonempty_no_open.
    rewrite no_char_app, Ho. reflexivity.
Qed.

Lemma replace_own_placeholder : forall k v,
  str_replace (placeholder k) (placeholder k) v = v.
Proof.
  intros k v. unfold str_replace, placeholder. cbn -[ascii_dec].
  destruct (ascii_dec "{" "{") as [_|E]; [|congruence].
  rewrite prefix_refl, drop_length, replace_nonempty_empty, append_empty_r.
  reflexivity.
Qed.

Lemma replace_pass_app : forall t d1 d2,
  replace_pass t (app d1 d2) = replace_pass (replace_pass t d1) d2.
Proof. intros. unfold replace_pass. apply fold_left_app. Qed.

Lemma replace_pass_keeps_placeholder : forall k d,
  no_braces k = true -> ~ In k (map fst d) ->
  replace_pass (placeholder k) d = placeholder k.
Proof.
  intros k d Hk. induction d as [|[j x] d IH]; intros Hin; [reflexivity|].
  change (replace_pass (str_replace (placeholder k) (placeholder j) x) d = placeholder k).
  cbn -[ascii_dec] in Hin.
  rewrite replace_other_placeholder by (auto; intro E; apply Hin; left; exact E).
  apply IH. intro H; apply Hin; right; exact H.
Qed.

Lemma replace_pass_brace_free : forall d t, no_char "{" t = true -> replace_pass t d = t.
Proof.
  induction d as [|[v x] d IH]; intros t Ht; [reflexivity|].
  change (replace_pass (str_replace t (placeholder v) x) d = t).
  assert (E : str_replace t (placeholder v) x = t)
    by exact (replace_nonempty_no_open t (String.length t) (v ++ "}") x Ht).
  rewrite E. apply IH. exact Ht.
Qed.

Lemma replace_with_variables_brace_free_gen : forall t c u,
  no_char "{" t = true -> replace_with_variables t c u = t.
Proof.
  intros t c u Ht. unfold replace_with_variables.
  rewrite (replace_pass_brace_free u t Ht). apply replace_pass_brace_free. exact Ht.
Qed.

Lemma replace_pass_own_value : forall k v c1 c2,
  no_braces k = true -> ~ In k (map fst c1) ->
  replace_pass (placeholder k) (app c1 ((k, v) :: c2)) = replace_pass v c2.
Proof.
  intros k v c1 c2 Hk Hin. rewrite replace_pass_app, replace_pass_keeps_placeholder by assumption.
  change (replace_pass (str_replace (placeholder k) (placeholder k) v) c2 = replace_pass v c2).
  rewrite replace_own_placeholder. reflexivity.
Qed.

Lemma bind_nil : forall A B (m : M A) (f : A -> M B) h a h1,
  m h = ([], Ok a h1) -> bind m f h = f a h1.
Proof. intros A B m f h a h1 E. unfold bind. rewrite E. destruct (f a h1); reflexivity. Qed.

Lemma bind_halt : forall A B (m : M A) (f : A -> M B) h t x,
  m h = (t, Halt x) -> bind m f h = (t, Halt x).
Proof. intros A B m f h t x E. unfold bind. rewrite E. reflexivity. Qed.

Lemma store_length : forall h r d, List.length (store h r d) = List.length h.
Proof. induction h as [|x h IH]; intros [|r] d; cbn; auto. Qed.

Lemma deref_store_same : forall h r d, r < List.length h -> deref (store h r d) r = d.
Proof.
  induction h as [|x h IH]; intros [|r] d Hr; cbn in *; try lia; auto.
  apply IH. lia.
Qed.

Lemma deref_store_other : forall h r r' d, r' <> r -> deref (store h r d) r' = deref h r'.
Proof.
  induction h as [|x h IH]; intros [|r] [|r'] d Hr; cbn; auto; try congruence.
  apply IH. congruence.
Qed.

(** The in-place update writes to the object [r] and nowhere else. *)
Section InPlace.
Variable r : ref.
Variable step : heap -> string * string -> heap.
Variable write : heap -> string * string -> dict.
Hypothesis step_stores : forall h e, step h e = store h r (write h e).

Lemma fold_store_length : forall es h,
  List.length (fold_left step es h) = List.length h.
Proof.
  induction es as [|e es IH]; intros h; cbn [fold_left]; [reflexivity|].
  rewrite IH, step_stores. apply store_length.
Qed.

Lemma fold_store_other : forall es h r', r' <> r ->
  deref (fold_left step es h) r' = deref h r'.
Proof.
  induction es as [|e es IH]; intros h r' Hne; cbn [fold_left]; [reflexivity|].
  rewrite IH, step_stores by exact Hne. apply deref_store_other. exact Hne.
Qed.

End InPlace.

Lemma set_variable_stores : forall u r h e,
  set_variable u r h e = store h r (declare_variable u (deref h r) e).
Proof. intros u r h [var t]. reflexivity. Qed.

Lemma set_environment_stores : forall u er vr h e,
  set_environment u er vr h e = store h er (declare_environment u (deref h vr) (deref h er) e).
Proof. intros u er vr h [var t]. reflexivity. Qed.

Lemma fold_set_variable_value : forall u r vs h, r < List.length h ->
  deref (fold_left (set_variable u r) vs h) r = fold_left (declare_variable u) vs (deref h r).
Proof.
  intros u r. induction vs as [|e vs IH]; intros h Hr; cbn [fold_left]; [reflexivity|].
  rewrite IH.
  - rewrite set_variable_stores, deref_store_same by exact Hr. reflexivity.
  - rewrite set_variable_stores, store_length. exact Hr.
Qed.

Lemma fold_set_environment_value : forall u er vr es h, er < List.length h -> vr <> er ->
  deref (fold_left (set_environment u er vr) es h) er
  = fold_left (declare_environment u (deref h vr)) es (deref h er).
Proof.
  intros u er vr. induction es as [|e es IH]; intros h Hr Hne; cbn [fold_left]; [reflexivity|].
  rewrite IH.
  - rewrite !set_environment_stores, deref_store_same, deref_store_other by assumption.
    reflexivity.
  - rewrite set_environment_stores, store_length. exact Hr.
  - exact Hne.
Qed.

Lemma prefix_substring0 : forall s n, String.prefix (substring 0 n s) s = true.
Proof.
  induction s as [|c s IH]; intros [|n]; cbn -[ascii_dec]; auto.
  destruct (ascii_dec c c); [apply IH | congruence].
Qed.

Lemma re_match_prefix : forall rx s m, re_match rx s = Some m -> String.prefix m s = true.
Proof.
  intros rx s m. unfold re_match. destruct (match_here _ rx s); [|discriminate].
  intro E. injection E as <-. apply prefix_substring0.
Qed.

(** [get_path] never changes the heap. *)
Lemma get_path_heap : forall cwd home uh ns lib root r u h t m h',
  get_path cwd home uh ns lib root r u h = (t, Ok m h') -> h' = h.
Proof.
  intros cwd home uh ns lib root r u h t m h'.
  unfold get_path, error, bind, read, ret, stop, emit.
  destruct (n_path root); [destruct (re_compile _); try destruct (lib _ _)|];
    cbv beta iota zeta; intro E; inversion E; reflexivity.
Qed.

(** * Claims *)

(** ** C1 *)




(** ** C2 *)

(** C2 (counterexample): [extract_variables] changes the dict object it is
    given, and in [main] a later project then sees the variables of an
    earlier project that did not match: with p1 = {path: /nomatch,
    variables: {x: 1}} and p2 = {path: /tmp, build: [echo {x}]}, run in
    /tmp, the build of p2 runs "echo 1". *)
Lemma C2_not_pure_counterexample :
  deref (snd (extract_variables node_with_x 0 [] [[]])) 0 <> deref [[]] 0 /\
  fst (main "/tmp" "/root" no_user_home [] shell_ok show_node lib_nomatch args_default config_leak [])
  = let cmd := "echo -e '\n##############\n### echo 1 ###\n##############\n' && echo 1" in
    [Stdout cmd; Spawn cmd "/tmp" []].
Proof. split; [vm_compute; discriminate | vm_compute; reflexivity]. Qed.

(** C2 (amended): [extract_variables] and [extract_environment] are not
    pure: they write the node's entries, in declaration order, into the
    very dict object they are given (each variable template resolved
    against that object as updated so far, each environment template
    against the variables object) and return that same object; no other
    object changes. *)
Theorem C2_extract_in_place : forall root vr er u h,
  vr < List.length h -> er < List.length h -> vr <> er ->
  (fst (extract_variables root vr u h) = vr /\
   deref (snd (extract_variables root vr u h)) vr
   = match n_variables root with
     | Some vs => fold_left (declare_variable u) vs (deref h vr)
     | None => deref h vr
     end /\
   (forall r', r' <> vr -> deref (snd (extract_variables root vr u h)) r' = deref h r')) /\
  (fst (extract_environment root er vr u h) = er /\
   deref (snd (extract_environment root er vr u h)) er
   = match n_environment root with
     | Some es => fold_left (declare_environment u (deref h vr)) es (deref h er)
     | None => deref h er
     end /\
   (forall r', r' <> er -> deref (snd (extract_environment root er vr u h)) r' = deref h r')).
Proof.
  intros root vr er u h Hv He Hne.
  unfold extract_variables, extract_environment.
  split; split; [|split| |split].
  - destruct (n_variables root); reflexivity.
  - destruct (n_variables root); [apply fold_set_variable_value; exact Hv | reflexivity].
  - intros r' Hr'. destruct (n_variables root); [|reflexivity].
    eapply fold_store_other; [apply set_variable_stores | exact Hr'].
  - destruct (n_environment root); reflexivity.
  - destruct (n_environment root); [apply fold_set_environment_value; assumption | reflexivity].
  - intros r' Hr'. destruct (n_environment root); [|reflexivity].
    eapply fold_store_other; [apply set_environment_stores | exact Hr'].
Qed.

Lemma C2_extract_in_place_witness :
  (fst (extract_variables node_with_x 0 [] [[]; []]) = 0 /\
   deref (snd (extract_variables node_with_x 0 [] [[]; []])) 0 = [("x", "1")] /\
   (forall r', r' <> 0 -> deref (snd (extract_variables node_with_x 0 [] [[]; []])) r'
                          = deref [[]; []] r')) /\
  (fst (extract_environment node_with_x 1 0 [] [[]; []]) = 1 /\
   deref (snd (extract_environment node_with_x 1 0 [] [[]; []])) 1 = [] /\
   (forall r', r' <> 1 -> deref (snd (extract_environment node_with_x 1 0 [] [[]; []])) r'
                          = deref [[]; []] r')).
Proof.
  pose proof (C2_extract_in_place node_with_x 0 1 [] [[]; []]
                ltac:(cbn; lia) ltac:(cbn; lia) ltac:(lia)) as H.
  exact H.
Defined.

(** ** C7 *)

(** C7 (counterexample): a user value is itself rewritten by the computed
    variables: user {os: "{os}"} and computed {os: "linux"} resolve "{os}"
    to "linux", the computed value. *)
Lemma C7_user_value_rescanned_counterexample :
  replace_with_variables "{os}" [("os", "linux")] [("os", "{os}")] = "linux" /\
  replace_with_variables "{os}" [("os", "linux")] [("os", "{os}")] <> "{os}".
Proof. split; [reflexivity | vm_compute; discriminate]. Qed.

(** C7 (amended): for a key k (without braces) defined in the user map, a
    placeholder {k} of the template is replaced by the user's value, and
    the resolution then goes on with that value alone: the user keys after
    k and then the computed map act on it as on a template equal to it.
    A user value without '{' is therefore the result as it is, and the
    computed entry for k plays no part: for user {os: "mac"} and computed
    {os: "linux"}, "{os}" resolves to "mac". *)
Theorem C7_user_value_first : forall k v u1 u2 c,
  no_braces k = true -> ~ In k (map fst u1) ->
  replace_with_variables (placeholder k) c (app u1 ((k, v) :: u2))
  = replace_with_variables v c u2 /\
  (no_char "{" v = true ->
   replace_with_variables (placeholder k) c (app u1 ((k, v) :: u2)) = v) /\
  replace_with_variables "{os}" [("os", "linux")] [("os", "mac")] = "mac".
Proof.
  intros k v u1 u2 c Hk Hin.
  assert (E : replace_with_variables (placeholder k) c (app u1 ((k, v) :: u2))
              = replace_with_variables v c u2).
  { unfold replace_with_variables. rewrite (replace_pass_own_value k v u1 u2 Hk Hin).
    reflexivity. }
  split; [exact E|split; [|reflexivity]].
  intro Hv. rewrite E. apply replace_with_variables_brace_free_gen. exact Hv.
Qed.

Lemma C7_user_value_first_witness :
  replace_with_variables (placeholder "os") [("os", "linux")] (app [] [("os", "mac")])
  = replace_with_variables "mac" [("os", "linux")] [] /\
  (no_char "{" "mac" = true ->
   replace_with_variables (placeholder "os") [("os", "linux")] (app [] [("os", "mac")])
   = "mac") /\
  replace_with_variables "{os}" [("os", "linux")] [("os", "mac")] = "mac".
Proof.
  apply (C7_user_value_first "os" "mac" [] [] [("os", "linux")]).
  - reflexivity.
  - cbn. tauto.
Defined.

(** ** The project loop of [main] *)

Section Orchestrator.
Variable cwd home : string.
Variable user_home : string -> option string.
Variable os_environ : dict.
Variable shell : string -> string -> dict -> Z.
Variable node_str : node -> string.
Variable re_lib : string -> string -> option (option string).

Local Abbreviation get_path' := (get_path cwd home user_home node_str re_lib).
Local Abbreviation skipped' := (skipped cwd home user_home node_str re_lib).
Local Abbreviation select_project' := (select_project cwd home user_home os_environ shell node_str re_lib).
Local Abbreviation main' := (main cwd home user_home os_environ shell node_str re_lib).
Local Abbreviation run_project' := (run_project os_environ shell).
Local Abbreviation build' := (build os_environ shell).
Local Abbreviation execute_command' := (execute_command os_environ shell).

Lemma state_ok : forall f h r h1, f h = (r, h1) -> state f h = ([], Ok r h1).
Proof. intros f h r h1 E. unfold state. rewrite E. reflexivity. Qed.

(** One project whose path does not give a non-empty match is passed over. *)
Lemma select_project_step_skip : forall a vr er u n p rest h r h1 m,
  extract_variables p vr u h = (r, h1) ->
  get_path' p r u h1 = ([], Ok m h1) ->
  (m = None \/ m = Some EmptyString) ->
  select_project' a vr er u ((n, p) :: rest) h = select_project' a vr er u rest h1.
Proof.
  intros a vr er u n p rest h r h1 m Ex Gp Hm. cbn [select_project].
  rewrite (bind_nil _ _ _ _ h r h1) by (apply state_ok; exact Ex).
  rewrite (bind_nil _ _ _ _ h1 m h1) by exact Gp.
  destruct Hm as [-> | ->]; reflexivity.
Qed.

Lemma select_project_skipped : forall a vr er u ps1 rest h h',
  skipped' vr u ps1 h = Some h' ->
  select_project' a vr er u (app ps1 rest) h = select_project' a vr er u rest h'.
Proof.
  intros a vr er u ps1 rest. induction ps1 as [|[n p] ps1 IH]; intros h h' Hs.
  - cbn in Hs. injection Hs as <-. reflexivity.
  - cbn [skipped] in Hs.
    destruct (extract_variables p vr u h) as [r h1] eqn:Ex.
    destruct (get_path' p r u h1) as [[|e t] res] eqn:Gp; [|discriminate Hs].
    destruct res as [[[|c s]|] h2|x]; try discriminate Hs.
    + (* getPath leaves the heap as it is *)
      assert (h2 = h1) as ->.
      { exact (get_path_heap _ _ _ _ _ _ _ _ _ _ _ _ Gp). }
      cbn [app]. rewrite (select_project_step_skip a vr er u n p _ h r h1 (Some EmptyString));
        auto.
    + assert (h2 = h1) as ->.
      { exact (get_path_heap _ _ _ _ _ _ _ _ _ _ _ _ Gp). }
      cbn [app]. rewrite (select_project_step_skip a vr er u n p _ h r h1 None); auto.
Qed.

(** ** C3 *)

(** C3: at most one project is selected.  When the loop of [main] passes
    over the projects [ps1] without a match and the next project [p] gives
    a non-empty match [path], the whole run is the build/test of [p] alone:
    the projects [ps2] after it never influence the outcome. *)
Theorem C3_first_match_only : forall a config h0 vr er u ps1 n p ps2 h1 h2 r h3 path,
  setup a config h0 = ([], Ok (vr, er, u, app ps1 ((n, p) :: ps2)) h1) ->
  skipped' vr u ps1 h1 = Some h2 ->
  extract_variables p vr u h2 = (r, h3) ->
  get_path' p r u h3 = ([], Ok (Some path) h3) ->
  path <> EmptyString ->
  main' a config h0 = run_project' a p path r er u h3.
Proof.
  intros a config h0 vr er u ps1 n p ps2 h1 h2 r h3 path Hs Hk Ex Gp Hne.
  unfold main. rewrite (bind_nil _ _ _ _ h0 _ h1) by exact Hs. cbv beta iota.
  rewrite (select_project_skipped a vr er u ps1 _ h1 h2 Hk).
  cbn [select_project].
  rewrite (bind_nil _ _ _ _ h2 r h3) by (apply state_ok; exact Ex).
  rewrite (bind_nil _ _ _ _ h3 (Some path) h3) by exact Gp.
  destruct path; [contradiction | reflexivity].
Qed.

(** ** C4 *)

(** C4: a pipeline that exits non-zero ends the run: [execute_command]
    prints the error naming the command and exits with status 1, and
    nothing sequenced after it runs (no retry, no continuation); in
    particular, when the build phase halts, the test phase is not
    reached even with --test. *)
Theorem C4_failure_is_fatal :
  (forall cmd cwd0 er h A (k : unit -> M A),
     shell cmd cwd0 (dict_merge os_environ (deref h er)) <> 0%Z ->
     execute_command' cmd cwd0 er h
     = ([Stdout cmd; Spawn cmd cwd0 (dict_merge os_environ (deref h er));
         Stderr ("ERROR: Execution of " ++ DQ ++ cmd ++ DQ ++ " failed.")], Halt (Exit 1)) /\
     bind (execute_command' cmd cwd0 er) k h
     = ([Stdout cmd; Spawn cmd cwd0 (dict_merge os_environ (deref h er));
         Stderr ("ERROR: Execution of " ++ DQ ++ cmd ++ DQ ++ " failed.")], Halt (Exit 1))) /\
  (forall a p path r er u h t x,
     a_no_build a = false ->
     build' p path r er u h = (t, Halt x) ->
     run_project' a p path r er u h = (t, Halt x)).
Proof.
  split.
  - intros cmd cwd0 er h A k Hsh.
    assert (E : execute_command' cmd cwd0 er h
                = ([Stdout cmd; Spawn cmd cwd0 (dict_merge os_environ (deref h er));
                    Stderr ("ERROR: Execution of " ++ DQ ++ cmd ++ DQ ++ " failed.")],
                   Halt (Exit 1))).
    { unfold execute_command, bind, emit, read, ret, error, stop. cbv beta iota zeta.
      destruct (Z.eqb_spec (shell cmd cwd0 (dict_merge os_environ (deref h er))) 0)
        as [Hz|_]; [contradiction | reflexivity]. }
    split; [exact E|]. exact (bind_halt _ _ _ _ h _ _ E).
  - intros a p path r er u h t x Ha Hb.
    unfold run_project. rewrite Ha. cbn [negb].
    apply bind_halt. exact Hb.
Qed.

(** ** C5 *)

(** C5: when no project of the configuration matches, the run ends with
    the single diagnostic "ERROR: No matching configuration entry found."
    on standard error and exit status 1; nothing is printed on standard
    output and no command is spawned. *)
Theorem C5_no_match_fails : forall a config h0 vr er u ps h1 h2,
  setup a config h0 = ([], Ok (vr, er, u, ps) h1) ->
  skipped' vr u ps h1 = Some h2 ->
  main' a config h0
  = ([Stderr "ERROR: No matching configuration entry found."], Halt (Exit 1)).
Proof.
  intros a config h0 vr er u ps h1 h2 Hs Hk.
  unfold main. rewrite (bind_nil _ _ _ _ h0 _ h1) by exact Hs. cbv beta iota.
  rewrite <- (app_nil_r ps). rewrite (select_project_skipped a vr er u ps [] h1 h2 Hk).
  reflexivity.
Qed.

(** ** C10 *)

(** C10: a project whose path pattern matches only the empty prefix of the
    working directory is passed over like one that does not match. *)
Theorem C10_empty_match_skipped : forall a vr er u n p rest h r h1,
  extract_variables p vr u h = (r, h1) ->
  get_path' p r u h1 = ([], Ok (Some EmptyString) h1) ->
  select_project' a vr er u ((n, p) :: rest) h = select_project' a vr er u rest h1.
Proof.
  intros a vr er u n p rest h r h1 Ex Gp.
  apply (select_project_step_skip a vr er u n p rest h r h1 (Some EmptyString));
    [exact Ex | exact Gp | right; reflexivity].
Qed.

End Orchestrator.

Lemma C3_first_match_only_witness :
  main "/x" "/root" no_user_home [] shell_ok show_node lib_nomatch args_default config_two []
  = run_project [] shell_ok args_default first_project "/x" 0 1 [] heap_after_setup.
Proof.
  apply (C3_first_match_only "/x" "/root" no_user_home [] shell_ok show_node lib_nomatch
           args_default config_two [] 0 1 [] [] "first" first_project
           [("second", second_project)] heap_after_setup heap_after_setup 0
           heap_after_setup "/x");
    [vm_compute; reflexivity .. | discriminate].
Defined.

Lemma C4_failure_is_fatal_witness :
  (execute_command [] shell_fail "false" "/tmp" 0 [[]]
   = ([Stdout "false"; Spawn "false" "/tmp" [];
       Stderr ("ERROR: Execution of " ++ DQ ++ "false" ++ DQ ++ " failed.")], Halt (Exit 1)) /\
   bind (execute_command [] shell_fail "false" "/tmp" 0) (fun _ => ret tt) [[]]
   = ([Stdout "false"; Spawn "false" "/tmp" [];
       Stderr ("ERROR: Execution of " ++ DQ ++ "false" ++ DQ ++ " failed.")], Halt (Exit 1))) /\
  run_project [] shell_fail args_with_test failing_project "/tmp" 0 1 [] heap_after_setup
  = (fst (build [] shell_fail failing_project "/tmp" 0 1 [] heap_after_setup), Halt (Exit 1)).
Proof.
  destruct (C4_failure_is_fatal [] shell_fail) as [H1 H2]. split.
  - apply (H1 "false" "/tmp" 0 [[]] unit (fun _ => ret tt)). discriminate.
  - apply H2; [reflexivity | vm_compute; reflexivity].
Defined.

Lemma C5_no_match_fails_witness :
  main "/tmp" "/root" no_user_home [] shell_ok show_node lib_nomatch args_default
    (config_of [("p", other_project)]) []
  = ([Stderr "ERROR: No matching configuration entry found."], Halt (Exit 1)).
Proof.
  apply (C5_no_match_fails "/tmp" "/root" no_user_home [] shell_ok show_node lib_nomatch
           args_default (config_of [("p", other_project)]) [] 0 1 []
           [("p", other_project)] heap_after_setup heap_after_setup);
    vm_compute; reflexivity.
Defined.

Lemma C10_empty_match_skipped_witness :
  select_project "/tmp" "/root" no_user_home [] shell_ok show_node lib_nomatch args_default 0 1 []
    [("p", empty_match_project)] heap_after_setup
  = select_project "/tmp" "/root" no_user_home [] shell_ok show_node lib_nomatch args_default 0 1 []
      [] heap_after_setup.
Proof.
  apply (C10_empty_match_skipped "/tmp" "/root" no_user_home [] shell_ok show_node lib_nomatch
           args_default 0 1 [] "p" empty_match_project [] heap_after_setup 0
           heap_after_setup);
    vm_compute; reflexivity.
Defined.

(** ** C6 *)

(** C6 (code bug): [build] only skips a project without a [build] key; a
    present but empty step list still reaches [execute_command] with the
    empty command: an empty line is printed and a shell is spawned. *)
Theorem C6_empty_build_list_executes :
  build [] shell_ok empty_build_project "/tmp" 0 1 [] heap_after_setup
  = ([Stdout ""; Spawn "" "/tmp" []], Ok tt heap_after_setup) /\
  build [] shell_ok no_build_project "/tmp" 0 1 [] heap_after_setup
  = ([], Ok tt heap_after_setup).
Proof. split; vm_compute; reflexivity. Qed.

(** ** C8 *)

(** C8 (counterexample): a path that is not a valid regular expression
    ("*": nothing to repeat) makes [get_path] raise instead of returning a
    match or NoMatch. *)
Lemma C8_invalid_pattern_counterexample :
  get_path "/tmp" "/root" no_user_home show_node lib_nomatch (project (Some "*") None None None)
    0 [] heap_after_setup = ([], Halt (Raise "re.error")).
Proof. vm_compute. reflexivity. Qed.

(** C8 (amended): [get_path] reports the fatal configuration error
    ("ERROR: No path in ..." and exit 1) exactly when the node has no
    [path].  Otherwise it prints nothing: it substitutes the variables,
    expands a leading [~], and either [re.compile] rejects the result and
    re.error is raised (for instance for "*": nothing to repeat), or the
    pattern is matched at the start of the working directory and the
    matched prefix or NoMatch is returned.  For a pattern of the modelled
    subset the result is the subset's match; for other patterns it is what
    the library returns, a prefix of the working directory as
    [match.group()] of an anchored match is. *)
Theorem C8_get_path_contract :
  (forall cwd home uh ns lib root r u h,
     (forall pat s m, lib pat s = Some (Some m) -> String.prefix m s = true) ->
     (n_path root = None ->
      get_path cwd home uh ns lib root r u h
      = ([Stderr ("ERROR: No path in " ++ ns root)], Halt (Exit 1))) /\
     (forall p, n_path root = Some p ->
      (get_path cwd home uh ns lib root r u h = ([], Halt (Raise "re.error")) \/
       exists m, get_path cwd home uh ns lib root r u h = ([], Ok m h) /\
                 (forall x, m = Some x -> String.prefix x cwd = true)) /\
      match re_compile (expanduser home uh (replace_with_variables p (deref h r) u)) with
      | Parsed rx => get_path cwd home uh ns lib root r u h = ([], Ok (re_match rx cwd) h)
      | ReError => get_path cwd home uh ns lib root r u h = ([], Halt (Raise "re.error"))
      | Unmodelled => True
      end)) /\
  get_path "/home/user/proj/sub" "/root" no_user_home show_node lib_nomatch
    (project (Some "/home/user/proj") None None None) 0 [] heap_after_setup
  = ([], Ok (Some "/home/user/proj") heap_after_setup) /\
  get_path "/home/user/proj/sub" "/root" no_user_home show_node lib_nomatch
    (project (Some "/other") None None None) 0 [] heap_after_setup
  = ([], Ok None heap_after_setup) /\
  get_path "/tmp" "/root" no_user_home show_node lib_nomatch
    (project (Some "*") None None None) 0 [] heap_after_setup
  = ([], Halt (Raise "re.error")).
Proof.
  split; [|split; [|split]; vm_compute; reflexivity].
  intros cwd home uh ns lib root r u h Hlib. split.
  - intro Hp. unfold get_path. rewrite Hp. reflexivity.
  - intros p Hp. unfold get_path. rewrite Hp.
    unfold bind, read. cbv beta iota zeta.
    destruct (re_compile _) as [rx| |].
    + split; [|reflexivity]. right. exists (re_match rx cwd). split; [reflexivity|].
      intros x Ex. exact (re_match_prefix rx cwd x Ex).
    + split; [left|]; reflexivity.
    + split; [|exact I].
      destruct (lib _ cwd) as [m|] eqn:E; [right | left; reflexivity].
      exists m. split; [reflexivity|]. intros x ->. exact (Hlib _ _ _ E).
Qed.

Lemma C8_get_path_contract_witness :
  (forall pat s m, lib_nomatch pat s = Some (Some m) -> String.prefix m s = true) /\
  get_path "/tmp" "/root" no_user_home show_node lib_nomatch (project None None None None) 0 []
    heap_after_setup
  = ([Stderr ("ERROR: No path in " ++ show_node (project None None None None))],
     Halt (Exit 1)).
Proof.
  assert (Hlib : forall pat s m, lib_nomatch pat s = Some (Some m) -> String.prefix m s = true)
    by (intros pat s m E; discriminate E).
  split; [exact Hlib|].
  destruct C8_get_path_contract as [H _].
  apply (proj1 (H "/tmp" "/root" no_user_home show_node lib_nomatch
                  (project None None None None) 0 [] heap_after_setup Hlib)).
  reflexivity.
Defined.

(** ** C9 *)

(** C9 (code bug): the title is put between single quotes without
    escaping, so a step containing a single quote is not echoed as
    written: for the step [echo 'hi'] the banner prints "### echo hi ###"
    between lines of 17 '#' (8 + the length of the unprinted title); a
    title without quotes is framed as specified. *)
Theorem C9_quoted_title_banner :
  let nl := String LF EmptyString in
  echo_output (banner "echo 'hi'")
  = Some (nl ++ hashes 17 ++ nl ++ "### echo hi ###" ++ nl ++ hashes 17 ++ nl ++ nl) /\
  echo_output (banner "echo 'hi'") <> Some (banner_output_as_specified "echo 'hi'") /\
  echo_output (banner "echo hi") = Some (banner_output_as_specified "echo hi").
Proof.
  cbv zeta. split; [|split].
  - vm_compute. reflexivity.
  - vm_compute. congruence.
  - vm_compute. reflexivity.
Qed.

(** * Further properties of the code *)

(** ** Strings and dicts *)

Lemma drop_length_sub : forall n s, String.length (drop n s) = String.length s - n.
Proof. induction n as [|n IH]; intros [|c s]; cbn; auto; lia. Qed.

Lemma prefix_length : forall s t, String.prefix s t = true -> String.length s <= String.length t.
Proof.
  induction s as [|c s IH]; intros [|d t] H; cbn -[ascii_dec] in *; try lia; try discriminate.
  destruct (ascii_dec c d); [apply IH in H; lia | discriminate].
Qed.

Lemma dict_get_set : forall k k' v d,
  dict_get k (dict_set k' v d) = if String.eqb k k' then Some v else dict_get k d.
Proof.
  intros k k' v. induction d as [|[k2 v2] d IH]; cbn; [reflexivity|].
  destruct (String.eqb_spec k' k2) as [->|Hne]; cbn.
  - destruct (String.eqb k k2); reflexivity.
  - rewrite IH. destruct (String.eqb_spec k k2) as [->|_]; [|reflexivity].
    destruct (String.eqb_spec k2 k') as [E|_]; [congruence | reflexivity].
Qed.

Lemma dict_get_absent : forall k d, ~ In k (map fst d) -> dict_get k d = None.
Proof.
  intros k. induction d as [|[k2 v2] d IH]; intros Hin; cbn in *; [reflexivity|].
  destruct (String.eqb_spec k k2) as [->|_]; [tauto | apply IH; tauto].
Qed.

Lemma dict_get_merge : forall k b a, NoDup (map fst b) ->
  dict_get k (dict_merge a b)
  = match dict_get k b with Some v => Some v | None => dict_get k a end.
Proof.
  intros k. induction b as [|[k' v] b IH]; intros a Hnd; [reflexivity|].
  change (dict_merge a ((k', v) :: b)) with (dict_merge (dict_set k' v a) b).
  inversion Hnd as [|? ? Hnot Hnd']; subst.
  rewrite IH by exact Hnd'. cbn [dict_get].
  destruct (String.eqb_spec k k') as [->|Hne].
  - rewrite dict_get_absent by exact Hnot. rewrite dict_get_set, String.eqb_refl. reflexivity.
  - destruct (dict_get k b); [reflexivity|]. rewrite dict_get_set.
    apply String.eqb_neq in Hne. rewrite Hne. reflexivity.
Qed.

(** ** Substitution *)

(** X1: a template without ['{'] resolves to itself, whatever the user and
    computed maps hold. *)
Theorem replace_with_variables_brace_free : forall t c u,
  no_char "{" t = true -> replace_with_variables t c u = t.
Proof. exact replace_with_variables_brace_free_gen. Qed.

Lemma replace_with_variables_brace_free_witness :
  replace_with_variables "make -j8" [("os", "fedora")] [("bt", "Debug")] = "make -j8".
Proof. apply replace_with_variables_brace_free. reflexivity. Defined.

(** X2: a placeholder whose key (without braces) neither map defines is
    left in the text as it is. *)
Theorem replace_with_variables_unknown_key : forall k c u,
  no_braces k = true -> ~ In k (map fst u) -> ~ In k (map fst c) ->
  replace_with_variables (placeholder k) c u = placeholder k.
Proof.
  intros k c u Hk Hu Hc. unfold replace_with_variables.
  rewrite (replace_pass_keeps_placeholder k u Hk Hu).
  exact (replace_pass_keeps_placeholder k c Hk Hc).
Qed.

Lemma replace_with_variables_unknown_key_witness :
  replace_with_variables (placeholder "arch") [("os", "fedora")] [("bt", "Debug")]
  = placeholder "arch".
Proof.
  apply replace_with_variables_unknown_key; [reflexivity | cbn; intuition discriminate ..].
Defined.

(** ** banner *)

Lemma str_app_assoc : forall a b c, (a ++ b) ++ c = a ++ (b ++ c).
Proof. induction a as [|x a IH]; intros; cbn; [reflexivity | rewrite IH; reflexivity]. Qed.

Lemma sh_words_quoted : forall a b w, no_char "'" a = true ->
  sh_words (a ++ b) true (Some w) = sh_words b true (Some (w ++ a)).
Proof.
  induction a as [|c a IH]; intros b w Ha; cbn [append].
  - rewrite append_empty_r. reflexivity.
  - cbn [no_char] in Ha. apply andb_prop in Ha as [Hc Ha]. apply negb_true_iff in Hc.
    cbn [sh_words]. rewrite Hc. cbn [opt_word]. rewrite IH by exact Ha.
    rewrite str_app_assoc. reflexivity.
Qed.

Lemma echo_escapes_plain : forall a b, no_char "\" a = true ->
  echo_escapes (a ++ b) = option_map (append a) (echo_escapes b).
Proof.
  induction a as [|c a IH]; intros b Ha; cbn [append].
  - destruct (echo_escapes b); reflexivity.
  - cbn [no_char] in Ha. apply andb_prop in Ha as [Hc Ha]. apply negb_true_iff in Hc.
    cbn [echo_escapes]. rewrite Hc, IH by exact Ha. destruct (echo_escapes b); reflexivity.
Qed.

Lemma no_char_hashes : forall c n, Ascii.eqb "#" c = false -> no_char c (hashes n) = true.
Proof.
  intros c n Hc. induction n as [|n IH]; [reflexivity|]. cbn [hashes no_char].
  rewrite Hc, IH. reflexivity.
Qed.

Lemma no_char_substring0 : forall c s n, no_char c s = true -> no_char c (substring 0 n s) = true.
Proof.
  induction s as [|d s IH]; intros [|n] H; cbn in *; auto.
  apply andb_prop in H as [H1 H2]. rewrite H1, IH by exact H2. reflexivity.
Qed.

(** X3: for a title without single quotes, backslashes or NUL characters
    (which [subprocess.call] refuses), the banner command prints a blank
    line, a line of 8 + len(t) '#', the line "### t ###", the '#' line
    again and a blank line, where t is the title cut to 110 characters. *)
Theorem banner_printed : forall title,
  no_char "'" title = true -> no_char "\" title = true -> no_char "000" title = true ->
  echo_output (banner title) = Some (banner_output_as_specified title).
Proof.
  intros title Hq Hb _. unfold banner, banner_output_as_specified.
  set (t := if Nat.ltb 110 (String.length title) then substring 0 110 title else title).
  assert (Hq' : no_char "'" t = true)
    by (unfold t; destruct (Nat.ltb _ _); [apply no_char_substring0|]; exact Hq).
  assert (Hb' : no_char "\" t = true)
    by (unfold t; destruct (Nat.ltb _ _); [apply no_char_substring0|]; exact Hb).
  clearbody t. cbv zeta.
  assert (Sq : no_char "'" (hashes (String.length t)) = true) by (apply no_char_hashes; reflexivity).
  assert (Sb : no_char "\" (hashes (String.length t)) = true) by (apply no_char_hashes; reflexivity).
  change (hashes (8 + String.length t)) with ("########" ++ hashes (String.length t)).
  set (hs := hashes (String.length t)) in *. clearbody hs.
  assert (Hs : forall c, Ascii.eqb "#" c = false -> no_char c hs = true ->
                 no_char c ("########" ++ hs) = true)
    by (intros c Hc H; rewrite no_char_app, H, andb_true_r; exact (no_char_hashes c 8 Hc)).
  assert (W : sh_words ("echo -e '\n" ++ ("########" ++ hs) ++ "\n### " ++ t ++ " ###\n"
                        ++ ("########" ++ hs) ++ "\n'") false None
              = Some ["echo"; "-e"; "\n" ++ ("########" ++ hs) ++ "\n### " ++ t ++ " ###\n"
                                    ++ ("########" ++ hs) ++ "\n"]).
  { change ("echo -e '\n" ++ ("########" ++ hs) ++ "\n### " ++ t ++ " ###\n"
            ++ ("########" ++ hs) ++ "\n'")
      with ("echo -e '" ++ ("\n" ++ (("########" ++ hs) ++ ("\n### " ++ (t ++ (" ###\n"
            ++ (("########" ++ hs) ++ "\n'"))))))).
    assert (P : forall b, sh_words ("echo -e '" ++ b) false None
                = option_map (cons "echo") (option_map (cons "-e") (sh_words b true (Some ""))))
      by reflexivity.
    rewrite P.
    rewrite (sh_words_quoted "\n") by reflexivity.
    rewrite (sh_words_quoted ("########" ++ hs)) by (apply Hs; [reflexivity | exact Sq]).
    rewrite (sh_words_quoted "\n### ") by reflexivity.
    rewrite (sh_words_quoted t) by exact Hq'.
    rewrite (sh_words_quoted " ###\n") by reflexivity.
    rewrite (sh_words_quoted ("########" ++ hs)) by (apply Hs; [reflexivity | exact Sq]).
    assert (F : forall w, sh_words "\n'" true (Some w) = Some [w ++ "\n"])
      by (intro w; cbn; rewrite str_app_assoc; reflexivity).
    rewrite F. cbn [option_map]. rewrite !str_app_assoc. reflexivity. }
  unfold echo_output. rewrite W. cbn [String.concat].
  cbn. rewrite (echo_escapes_plain hs) by exact Sb.
  cbn. rewrite (echo_escapes_plain t) by exact Hb'.
  cbn. rewrite (echo_escapes_plain hs) by exact Sb.
  repeat (progress (cbn; rewrite ?str_app_assoc)). reflexivity.
Qed.

Lemma banner_printed_witness :
  echo_output (banner "make -j8 all") = Some (banner_output_as_specified "make -j8 all").
Proof. apply banner_printed; reflexivity. Defined.

(** ** extract_variables *)

Lemma extract_variables_eta : forall root r u h,
  extract_variables root r u h = (r, snd (extract_variables root r u h)).
Proof. intros. unfold extract_variables. destruct (n_variables root); reflexivity. Qed.

Lemma extract_environment_eta : forall root er vr u h,
  extract_environment root er vr u h = (er, snd (extract_environment root er vr u h)).
Proof. intros. unfold extract_environment. destruct (n_environment root); reflexivity. Qed.

Lemma extract_variables_length : forall root r u h,
  List.length (snd (extract_variables root r u h)) = List.length h.
Proof.
  intros. unfold extract_variables. destruct (n_variables root); [|reflexivity].
  eapply fold_store_length. apply set_variable_stores.
Qed.

Lemma extract_environment_other : forall root er vr u h r', r' <> er ->
  deref (snd (extract_environment root er vr u h)) r' = deref h r'.
Proof.
  intros. unfold extract_environment. destruct (n_environment root); [|reflexivity].
  eapply fold_store_other; [apply set_environment_stores | assumption].
Qed.

Lemma fold_declare_defined : forall u vs d k,
  (dict_get k d <> None \/ In k (map fst vs)) ->
  dict_get k (fold_left (declare_variable u) vs d) <> None.
Proof.
  intros u. induction vs as [|[var t] vs IH]; intros d k H; cbn [fold_left].
  - destruct H as [H|[]]. exact H.
  - apply IH. change (declare_variable u d (var, t))
      with (dict_set var (replace_with_variables t d u) d).
    rewrite dict_get_set. cbn [map fst In] in H.
    destruct H as [H|[E|H]].
    + left. destruct (String.eqb k var); [discriminate | exact H].
    + subst var. left. rewrite String.eqb_refl. discriminate.
    + right. exact H.
Qed.

Lemma extract_variables_defined : forall root r u h k, r < List.length h ->
  (dict_get k (deref h r) <> None \/
   In k (map fst (match n_variables root with Some vs => vs | None => [] end))) ->
  dict_get k (deref (snd (extract_variables root r u h)) r) <> None.
Proof.
  intros root r u h k Hr H. unfold extract_variables.
  destruct (n_variables root) as [vs|]; cbn [snd].
  - rewrite fold_set_variable_value by exact Hr. apply fold_declare_defined. exact H.
  - destruct H as [H|[]]. exact H.
Qed.

(** X4: [extract_variables] never removes a variable: afterwards the
    object holds every key it held before and every key the node
    declares. *)
Theorem extract_variables_keeps_keys : forall root r u h k, r < List.length h ->
  (dict_get k (deref h r) <> None \/
   In k (map fst (match n_variables root with Some vs => vs | None => [] end))) ->
  dict_get k (deref (snd (extract_variables root r u h)) r) <> None.
Proof. exact extract_variables_defined. Qed.

Lemma extract_variables_keeps_keys_witness :
  0 < List.length [[("os", "fedora")]] /\
  dict_get "os" (deref (snd (extract_variables node_with_x 0 [] [[("os", "fedora")]])) 0)
  <> None.
Proof.
  split; [cbn; lia|].
  apply (extract_variables_keeps_keys node_with_x 0 [] [[("os", "fedora")]] "os").
  - cbn. lia.
  - left. cbn. discriminate.
Defined.

(** ** The command-line variables *)

Lemma split_eq_first : forall k x, no_char "=" k = true -> split_eq (k ++ "=" ++ x) = Some (k, x).
Proof.
  induction k as [|c k IH]; intros x Hk; [reflexivity|].
  cbn [no_char] in Hk. apply andb_prop in Hk as [Hc Hk]. apply negb_true_iff in Hc.
  change (split_eq (String c (k ++ "=" ++ x))
          = Some (String c k, x)).
  cbn [split_eq]. rewrite Hc, (IH x Hk). reflexivity.
Qed.

Lemma split_eq_none : forall v, no_char "=" v = true -> split_eq v = None.
Proof.
  induction v as [|c v IH]; intros Hv; [reflexivity|].
  cbn [no_char] in Hv. apply andb_prop in Hv as [Hc Hv]. apply negb_true_iff in Hc.
  cbn [split_eq]. rewrite Hc, IH by exact Hv. reflexivity.
Qed.

Lemma split_eq_some : forall v, no_char "=" v = false -> exists k x, split_eq v = Some (k, x).
Proof.
  induction v as [|c v IH]; intros Hv; [discriminate|].
  cbn [no_char split_eq] in *. destruct (Ascii.eqb c "=").
  - eexists _, _. reflexivity.
  - cbn in Hv. destruct (IH Hv) as (k & x & E). rewrite E. eexists _, _. reflexivity.
Qed.

Lemma parse_variables_app : forall vs ws acc h d,
  parse_variables vs acc h = ([], Ok d h) ->
  parse_variables (app vs ws) acc h = parse_variables ws d h.
Proof.
  induction vs as [|v vs IH]; intros ws acc h d H; cbn [parse_variables app] in *.
  - injection H as <-. reflexivity.
  - destruct (split_eq v) as [[k x]|]; [apply IH; exact H | discriminate].
Qed.

Lemma parse_variables_bad : forall vs acc h v, In v vs -> no_char "=" v = true ->
  parse_variables vs acc h = ([], Halt (Raise "IndexError")).
Proof.
  induction vs as [|w vs IH]; intros acc h v Hin Hv; [destruct Hin|].
  cbn [parse_variables]. destruct Hin as [->|Hin].
  - rewrite split_eq_none by exact Hv. reflexivity.
  - destruct (split_eq w) as [[k x]|]; [apply (IH _ _ v); assumption | reflexivity].
Qed.

Lemma parse_variables_good : forall vs acc h,
  (forall v, In v vs -> no_char "=" v = false) ->
  exists d, parse_variables vs acc h = ([], Ok d h).
Proof.
  induction vs as [|v vs IH]; intros acc h Hall; cbn [parse_variables].
  - eexists. reflexivity.
  - destruct (split_eq_some v (Hall v (or_introl eq_refl))) as (k & x & E). rewrite E.
    apply IH. intros w Hw. apply Hall. right. exact Hw.
Qed.

(** X5: a -v argument [k=x] with no '=' in [k] sets the user variable [k]
    (not stripped) to [x] (everything after the first '=') stripped of
    surrounding blanks, and it overrides what -v arguments before it set
    for [k]. *)
Theorem parse_variables_last_wins : forall vs k x acc h d,
  no_char "=" k = true ->
  parse_variables vs acc h = ([], Ok d h) ->
  parse_variables (app vs [k ++ "=" ++ x]) acc h = ([], Ok (dict_set k (strip x) d) h) /\
  dict_get k (dict_set k (strip x) d) = Some (strip x).
Proof.
  intros vs k x acc h d Hk H. split.
  - rewrite (parse_variables_app vs _ acc h d H). cbn [parse_variables].
    rewrite split_eq_first by exact Hk. reflexivity.
  - rewrite dict_get_set, String.eqb_refl. reflexivity.
Qed.

Lemma parse_variables_last_wins_witness :
  parse_variables (app ["os=linux"] ["os" ++ "=" ++ " mac=1 "]) [] []
  = ([], Ok (dict_set "os" (strip " mac=1 ") [("os", "linux")]) []) /\
  dict_get "os" (dict_set "os" (strip " mac=1 ") [("os", "linux")]) = Some (strip " mac=1 ").
Proof. apply parse_variables_last_wins; reflexivity. Defined.

(** ** setup and main *)

Lemma setup_after_parse : forall a config h0 u,
  (match a_variable a with Some vs => parse_variables vs [] | None => ret [] end) h0
  = ([], Ok u h0) ->
  setup a config h0
  = let vr := List.length h0 in
    let d0 := dict_set "bt" (a_build_type a) (dict_set "os" (a_operating_system a) []) in
    let hA := snd (extract_variables config vr u (app h0 [d0])) in
    let er := List.length hA in
    let hB := snd (extract_environment config er vr u (app hA [[]])) in
    match n_projects config with
    | Some ps => ([], Ok (vr, er, u, ps) hB)
    | None => ([], Halt (Raise "KeyError"))
    end.
Proof.
  intros a config h0 u Hu. unfold setup.
  rewrite (bind_nil _ _ _ _ h0 u h0 Hu).
  unfold bind at 1, new_dict at 1, alloc at 1. cbv beta iota.
  unfold bind at 1, state at 1. rewrite extract_variables_eta. cbv beta iota.
  unfold bind at 1, new_dict at 1, alloc at 1. cbv beta iota.
  unfold bind at 1, state at 1. rewrite extract_environment_eta. cbv beta iota zeta.
  destruct (n_projects config); reflexivity.
Qed.

Lemma user_variables_shape : forall a h,
  (exists u, (match a_variable a with Some vs => parse_variables vs [] | None => ret [] end) h
             = ([], Ok u h)) \/
  (match a_variable a with Some vs => parse_variables vs [] | None => ret [] end) h
  = ([], Halt (Raise "IndexError")).
Proof.
  intros a h. destruct (a_variable a) as [vs|]; [|left; eexists; reflexivity].
  generalize (@nil (string * string)) as acc.
  induction vs as [|v vs IH]; intros acc; cbn [parse_variables].
  - left. eexists. reflexivity.
  - destruct (split_eq v) as [[k x]|]; [apply IH | right; reflexivity].
Qed.

(** X6: after [setup], the variables object defines "os" and "bt"
    whatever the configuration declares; without global variables they
    hold the --operating-system and --build-type values. *)
Theorem setup_seeds_os_bt : forall a config h0 vr er u ps h1,
  setup a config h0 = ([], Ok (vr, er, u, ps) h1) ->
  dict_get "os" (deref h1 vr) <> None /\ dict_get "bt" (deref h1 vr) <> None /\
  (n_variables config = None ->
   dict_get "os" (deref h1 vr) = Some (a_operating_system a) /\
   dict_get "bt" (deref h1 vr) = Some (a_build_type a)).
Proof.
  intros a config h0 vr er u ps h1 H.
  destruct (user_variables_shape a h0) as [[u0 Hu]|Hu].
  2: { unfold setup in H. rewrite (bind_halt _ _ _ _ h0 _ _ Hu) in H. discriminate. }
  rewrite (setup_after_parse a config h0 u0 Hu) in H. cbv zeta in H.
  set (d0 := dict_set "bt" (a_build_type a) (dict_set "os" (a_operating_system a) [])) in H.
  set (hA := snd (extract_variables config (List.length h0) u0 (app h0 [d0]))) in H.
  destruct (n_projects config); [|discriminate].
  injection H as <- <- <- <- <-.
  assert (LA : List.length hA = S (List.length h0)).
  { unfold hA. rewrite extract_variables_length, length_app. cbn. lia. }
  rewrite extract_environment_other by lia.
  unfold deref at 1 2 3 4. rewrite !app_nth1 by lia. fold (deref hA (List.length h0)).
  assert (D0 : deref (app h0 [d0]) (List.length h0) = d0) by apply nth_middle.
  assert (Hlen : List.length h0 < List.length (app h0 [d0])) by (rewrite length_app; cbn; lia).
  split; [|split].
  - apply extract_variables_defined; [exact Hlen|]. left. rewrite D0. cbn. discriminate.
  - apply extract_variables_defined; [exact Hlen|]. left. rewrite D0. cbn. discriminate.
  - intros Hv. unfold hA, extract_variables. rewrite Hv. cbn [snd]. rewrite D0.
    split; reflexivity.
Qed.

Lemma setup_seeds_os_bt_witness :
  setup args_default (config_of []) [] = ([], Ok (0, 1, [], []) heap_after_setup) /\
  (dict_get "os" (deref heap_after_setup 0) <> None /\
   dict_get "bt" (deref heap_after_setup 0) <> None /\
   (n_variables (config_of []) = None ->
    dict_get "os" (deref heap_after_setup 0) = Some (a_operating_system args_default) /\
    dict_get "bt" (deref heap_after_setup 0) = Some (a_build_type args_default))).
Proof.
  assert (E : setup args_default (config_of []) [] = ([], Ok (0, 1, [], []) heap_after_setup))
    by (vm_compute; reflexivity).
  split; [exact E|]. exact (setup_seeds_os_bt args_default (config_of []) [] 0 1 [] [] _ E).
Defined.

(** X7: a -v argument without '=' makes the run raise IndexError before
    anything is printed or spawned, whatever the configuration. *)
Theorem main_bad_variable : forall cwd home uh oe sh ns lib a config h vs v,
  a_variable a = Some vs -> In v vs -> no_char "=" v = true ->
  main cwd home uh oe sh ns lib a config h = ([], Halt (Raise "IndexError")).
Proof.
  intros cwd home uh oe sh ns lib a config h vs v Ha Hin Hv.
  unfold main. apply bind_halt. unfold setup. apply bind_halt. rewrite Ha.
  apply (parse_variables_bad vs [] h v Hin Hv).
Qed.

Definition args_bad_variable : args := {|
  a_no_build := false; a_test := false; a_variable := Some ["os=linux"; "verbose"];
  a_operating_system := "fedora"; a_build_type := "Release" |}.

Lemma main_bad_variable_witness :
  main "/tmp" "/root" no_user_home [] shell_ok show_node lib_nomatch args_bad_variable config_two []
  = ([], Halt (Raise "IndexError")).
Proof.
  apply (main_bad_variable _ _ _ _ _ _ _ args_bad_variable config_two []
           ["os=linux"; "verbose"] "verbose"); [reflexivity | cbn; tauto | reflexivity].
Defined.

(** X8: a configuration without [projects] makes the run raise KeyError
    (when every -v argument has an '='), before anything is printed or
    spawned. *)
Theorem main_no_projects : forall cwd home uh oe sh ns lib a config h,
  n_projects config = None ->
  (forall vs, a_variable a = Some vs -> forall v, In v vs -> no_char "=" v = false) ->
  main cwd home uh oe sh ns lib a config h = ([], Halt (Raise "KeyError")).
Proof.
  intros cwd home uh oe sh ns lib a config h Hp Hv.
  assert (Hu : exists u, (match a_variable a with
                          | Some vs => parse_variables vs [] | None => ret [] end) h
                         = ([], Ok u h)).
  { destruct (a_variable a) as [vs|] eqn:Ha; [|eexists; reflexivity].
    apply parse_variables_good. apply Hv. reflexivity. }
  destruct Hu as [u Hu].
  unfold main. apply bind_halt. rewrite (setup_after_parse a config h u Hu). cbv zeta.
  rewrite Hp. reflexivity.
Qed.

Lemma main_no_projects_witness :
  main "/tmp" "/root" no_user_home [] shell_ok show_node lib_nomatch args_default
    (Node None (Some [("a", "1")]) None None None None) []
  = ([], Halt (Raise "KeyError")).
Proof.
  apply main_no_projects; [reflexivity | cbn; discriminate].
Defined.

(** ** execute_command *)

(** X9: the shell runs with [os.environ] overlaid by the project
    environment (a key of the environment object wins, the other keys
    come from [os.environ]); when it exits with status 0 the command has
    been printed and spawned once and nothing else happened. *)
Theorem execute_command_environment : forall oe sh cmd cwd0 er h,
  NoDup (map fst (deref h er)) ->
  exists env,
    (forall k, dict_get k env
               = match dict_get k (deref h er) with Some v => Some v | None => dict_get k oe end) /\
    nth_error (fst (execute_command oe sh cmd cwd0 er h)) 1 = Some (Spawn cmd cwd0 env) /\
    (sh cmd cwd0 env = 0%Z ->
     execute_command oe sh cmd cwd0 er h = ([Stdout cmd; Spawn cmd cwd0 env], Ok tt h)).
Proof.
  intros oe sh cmd cwd0 er h Hnd. exists (dict_merge oe (deref h er)).
  split; [intro k; apply dict_get_merge; exact Hnd|].
  unfold execute_command, bind, emit, read, ret, error, stop. cbv beta iota zeta.
  split.
  - destruct (Z.eqb _ 0); reflexivity.
  - intro Hz. rewrite Hz. reflexivity.
Qed.

Lemma execute_command_environment_witness :
  exists env,
    (forall k, dict_get k env
               = match dict_get k (deref [[("HOME", "/tmp")]] 0) with
                 | Some v => Some v | None => dict_get k environ_sample end) /\
    nth_error (fst (execute_command environ_sample shell_ok "make" "/tmp" 0
                      [[("HOME", "/tmp")]])) 1 = Some (Spawn "make" "/tmp" env) /\
    (shell_ok "make" "/tmp" env = 0%Z ->
     execute_command environ_sample shell_ok "make" "/tmp" 0 [[("HOME", "/tmp")]]
     = ([Stdout "make"; Spawn "make" "/tmp" env], Ok tt [[("HOME", "/tmp")]])).
Proof.
  apply execute_command_environment. cbn. constructor; [intros [] | constructor].
Defined.

(** ** The pipeline of build / test *)

Lemma add_steps_nonempty : forall d u steps acc, acc <> [] ->
  fold_left (add_step d u) steps acc
  = app acc (flat_map (fun t => ["&&"; banner t; "&&"; t])
                      (map (fun s => replace_with_variables s d u) steps)).
Proof.
  intros d u. induction steps as [|s steps IH]; intros acc Hacc; cbn [fold_left map flat_map].
  - rewrite app_nil_r. reflexivity.
  - rewrite IH.
    + unfold add_step. destruct acc as [|w acc]; [contradiction|]. cbn [List.length Nat.ltb Nat.leb].
      rewrite <- !app_assoc. reflexivity.
    + unfold add_step. destruct (Nat.ltb _ _); destruct acc; cbn; discriminate.
Qed.

Lemma add_steps_pipeline_gen : forall d u steps,
  fold_left (add_step d u) steps []
  = pipeline_words (map (fun s => replace_with_variables s d u) steps).
Proof.
  intros d u [|s steps]; [reflexivity|]. cbn [fold_left map pipeline_words].
  rewrite add_steps_nonempty by (unfold add_step; cbn; discriminate).
  reflexivity.
Qed.

(** X10: the loop of [build] / [test] turns the steps s1 ... sn into the
    words banner(s1') && s1' && banner(s2') && s2' && ...  of the resolved
    steps si', with no leading or trailing "&&"; no step list gives no
    words. *)
Theorem add_steps_pipeline : forall d u steps,
  fold_left (add_step d u) steps []
  = pipeline_words (map (fun s => replace_with_variables s d u) steps).
Proof. exact add_steps_pipeline_gen. Qed.

Lemma copy_list : forall (xs acc : list string),
  fold_left (fun steps x => app steps [x]) xs acc = app acc xs.
Proof.
  induction xs as [|x xs IH]; intros acc; cbn [fold_left]; [rewrite app_nil_r; reflexivity|].
  rewrite IH, <- app_assoc. reflexivity.
Qed.

Lemma run_steps_spawns : forall oe sh phase p path vr er u h steps,
  phase p = Some steps ->
  spawns (fst (run_steps oe sh phase p path vr er u h))
  = let h2 := snd (extract_environment p er vr u (snd (extract_variables p vr u h))) in
    [(String.concat " " (pipeline_words
        (map (fun s => replace_with_variables s (deref h2 vr) u) steps)), path)].
Proof.
  intros oe sh phase p path vr er u h steps Hp. cbv zeta.
  unfold run_steps. rewrite Hp.
  rewrite (bind_nil _ _ _ _ h vr _) by (apply state_ok; apply extract_variables_eta).
  rewrite (bind_nil _ _ _ _ _ er _) by (apply state_ok; apply extract_environment_eta).
  rewrite (bind_nil _ _ _ _ _ _ _) by reflexivity.
  rewrite add_steps_pipeline_gen.
  unfold execute_command, bind, emit, read, ret, error, stop. cbv beta iota zeta.
  destruct (Z.eqb _ 0); reflexivity.
Qed.

(** X11: each phase runs at most one shell, in the matched directory:
    [build] (and likewise [test]) spawns nothing without its key and
    otherwise exactly one shell with the pipeline of the steps
    [get_build_steps] (for [test], [get_test_steps]) returns, each resolved
    against the variables as re-extracted for the project. *)
Theorem phase_single_shell : forall oe sh p path vr er u h,
  let h2 := snd (extract_environment p er vr u (snd (extract_variables p vr u h))) in
  let pipeline steps := String.concat " " (pipeline_words
        (map (fun s => replace_with_variables s (deref h2 vr) u) steps)) in
  spawns (fst (build oe sh p path vr er u h))
  = match n_build p with None => [] | Some _ => [(pipeline (get_build_steps p), path)] end /\
  spawns (fst (test oe sh p path vr er u h))
  = match n_test p with None => [] | Some _ => [(pipeline (get_test_steps p), path)] end.
Proof.
  intros oe sh p path vr er u h. cbv zeta. split.
  - unfold build, get_build_steps. destruct (n_build p) as [steps|] eqn:Hb.
    + rewrite (run_steps_spawns oe sh n_build p path vr er u h steps Hb), copy_list.
      reflexivity.
    + unfold run_steps. rewrite Hb. reflexivity.
  - unfold test, get_test_steps. destruct (n_test p) as [steps|] eqn:Hb.
    + rewrite (run_steps_spawns oe sh n_test p path vr er u h steps Hb), copy_list.
      reflexivity.
    + unfold run_steps. rewrite Hb. reflexivity.
Qed.

(** ** Literal path patterns *)

Lemma literal_char_facts : forall c, literal_char c = true ->
  is_quant c = false /\ Ascii.eqb c "^" = false /\ Ascii.eqb c "$" = false /\
  Ascii.eqb c "." = false /\ Ascii.eqb c "\" = false /\
  (Ascii.eqb c "(" || Ascii.eqb c ")" || Ascii.eqb c "[" || Ascii.eqb c "|") = false /\
  Ascii.eqb c "{" = false /\ Ascii.eqb c "~" = false.
Proof.
  intros c H. unfold literal_char in H.
  repeat match goal with
         | H : _ && _ = true |- _ => apply andb_prop in H; destruct H
         | H : negb _ = true |- _ => apply negb_true_iff in H
         end.
  repeat split; assumption.
Qed.

Lemma literal_path_no_open : forall s, literal_path s = true -> no_char "{" s = true.
Proof.
  induction s as [|c s IH]; intros H; [reflexivity|].
  cbn [literal_path] in H. apply andb_prop in H as [Hc Hs].
  destruct (literal_char_facts c Hc) as (_ & _ & _ & _ & _ & _ & Hb & _).
  cbn [no_char]. rewrite Hb, IH by exact Hs. reflexivity.
Qed.

Lemma re_parse_literal : forall s f, literal_path s = true -> String.length s < f ->
  re_parse f s = Parsed (literal_regex s).
Proof.
  induction s as [|c s IH]; intros f Hl Hf; destruct f as [|f]; cbn [String.length] in Hf;
    try lia; [reflexivity|].
  cbn [literal_path] in Hl. apply andb_prop in Hl as [Hc Hs].
  destruct (literal_char_facts c Hc) as (Hq & H1 & H2 & H3 & H4 & H5 & H6 & _).
  cbn [re_parse]. rewrite Hq, H1, H2. unfold read_atom. rewrite H3, H4, H5, H6.
  destruct s as [|q s']; [reflexivity|].
  cbn [literal_path] in Hs. pose proof Hs as Hs'. apply andb_prop in Hs' as [Hq' _].
  destruct (literal_char_facts q Hq') as (Hqq & _).
  rewrite Hqq, IH by (exact Hs || (cbn [String.length] in *; lia)). reflexivity.
Qed.

Lemma match_here_literal : forall n0 s t,
  match_here n0 (literal_regex s) t
  = if String.prefix s t then Some (drop (String.length s) t) else None.
Proof.
  intros n0. induction s as [|c s IH]; intros t; [destruct t; reflexivity|].
  destruct t as [|d t]; [reflexivity|].
  cbn -[ascii_dec]. destruct (ascii_dec c d) as [<-|Hne].
  - rewrite Ascii.eqb_refl. apply IH.
  - replace (Ascii.eqb d c) with false; [reflexivity|].
    symmetry. apply Ascii.eqb_neq. congruence.
Qed.

Lemma re_match_literal : forall s t,
  re_match (literal_regex s) t = if String.prefix s t then Some s else None.
Proof.
  intros s t. unfold re_match. rewrite match_here_literal.
  destruct (String.prefix s t) eqn:E; [|reflexivity].
  pose proof (prefix_length s t E) as Hle.
  rewrite drop_length_sub.
  replace (String.length t - (String.length t - String.length s)) with (String.length s)
    by lia.
  f_equal. apply prefix_correct. exact E.
Qed.

Lemma expanduser_literal : forall home uh s, literal_path s = true -> expanduser home uh s = s.
Proof.
  intros home uh [|c s] H; [reflexivity|].
  cbn [literal_path] in H. apply andb_prop in H as [Hc _].
  destruct (literal_char_facts c Hc) as (_ & _ & _ & _ & _ & _ & _ & Ht).
  unfold expanduser. rewrite Ht. reflexivity.
Qed.

(** X12: a path without regular-expression syntax, braces or '~' selects
    exactly the working directories it is a prefix of, and then returns
    itself; it never raises and never prints. *)
Theorem get_path_literal : forall cwd home uh ns lib root r u h p,
  n_path root = Some p -> literal_path p = true ->
  get_path cwd home uh ns lib root r u h
  = ([], Ok (if String.prefix p cwd then Some p else None) h).
Proof.
  intros cwd home uh ns lib root r u h p Hp Hl.
  unfold get_path. rewrite Hp. unfold bind, read. cbv beta iota zeta.
  rewrite (replace_with_variables_brace_free_gen p _ u (literal_path_no_open p Hl)).
  rewrite (expanduser_literal home uh p Hl).
  unfold re_compile. rewrite (re_parse_literal p _ Hl) by lia.
  unfold ret. rewrite re_match_literal. reflexivity.
Qed.

Lemma get_path_literal_witness :
  get_path "/home/u/proj/src" "/root" no_user_home show_node lib_nomatch
    (project (Some "/home/u/proj") None None None) 0 [] heap_after_setup
  = ([], Ok (if String.prefix "/home/u/proj" "/home/u/proj/src" then Some "/home/u/proj"
             else None) heap_after_setup).
Proof. apply get_path_literal; reflexivity. Defined.

(** ** The project loop *)

(** X13: a project without [path] that the loop reaches ends the run with
    "ERROR: No path in ..." and exit status 1, even when a later project
    would match. *)
Theorem select_project_missing_path :
  forall cwd home uh oe sh ns lib a vr er u ps1 n p ps2 h h',
  skipped cwd home uh ns lib vr u ps1 h = Some h' ->
  n_path p = None ->
  select_project cwd home uh oe sh ns lib a vr er u (app ps1 ((n, p) :: ps2)) h
  = ([Stderr ("ERROR: No path in " ++ ns p)], Halt (Exit 1)).
Proof.
  intros cwd home uh oe sh ns lib a vr er u ps1 n p ps2 h h' Hs Hp.
  rewrite (select_project_skipped cwd home uh oe sh ns lib a vr er u ps1 _ h h' Hs).
  cbn [select_project].
  rewrite (bind_nil _ _ _ _ h' vr _) by (apply state_ok; apply extract_variables_eta).
  apply bind_halt. unfold get_path. rewrite Hp. reflexivity.
Qed.

Definition pathless_project : node := project None None (Some ["make"]) None.

Lemma select_project_missing_path_witness :
  select_project "/tmp" "/root" no_user_home [] shell_ok show_node lib_nomatch args_default 0 1 []
    (app [("o", other_project)] [("bad", pathless_project); ("ok", no_build_project)])
    heap_after_setup
  = ([Stderr ("ERROR: No path in " ++ show_node pathless_project)], Halt (Exit 1)).
Proof.
  apply (select_project_missing_path _ _ _ _ _ _ _ args_default 0 1 [] [("o", other_project)]
           "bad" pathless_project [("ok", no_build_project)] heap_after_setup heap_after_setup);
    vm_compute; reflexivity.
Defined.
